(** * genie-flow-invoker: factory, Neo4j executor and chat adapter

    A shallow embedding of [genie_flow_invoker/factory.py],
    [genie_flow_invoker/invoker/neo4j.py] and
    [genie_flow_invoker/invoker/openai.py], with the properties of the
    specification proved (or refuted) against it. *)

Set Warnings "-register-all".
From stdpp Require Import base gmap strings list.
From Stdlib Require Import ZArith Ascii.
Open Scope string_scope.

(* ================================================================== *)
(** ** Python values *)

(** The values that travel through the invokers: the JSON data model
    (as produced by [json.loads] and by YAML step configurations), with
    integers for numbers.  Objects keep their key order. *)
Inductive jvalue :=
| JNull
| JBool (b : bool)
| JInt (z : Z)
| JStr (s : string)
| JArr (l : list jvalue)
| JObj (kvs : list (string * jvalue)).

(** Decimal rendering of an integer, as [str(int)]. *)
Fixpoint digits_N (fuel : nat) (n : N) (acc : string) : string :=
  match fuel with
  | O => acc
  | S f =>
      let acc' := String (ascii_of_N (48 + N.modulo n 10)) acc in
      if (n <? 10)%N then acc' else digits_N f (N.div n 10) acc'
  end.

Definition z_str (z : Z) : string :=
  if (z <? 0)%Z then "-" ++ digits_N (S (N.size_nat (Z.to_N (- z)))) (Z.to_N (- z)) ""
  else digits_N (S (N.size_nat (Z.to_N z))) (Z.to_N z) "".

Definition sq (s : string) : string := "'" ++ s ++ "'".

(** [repr] of a value (strings in single quotes, without escaping). *)
Fixpoint py_repr (v : jvalue) : string :=
  match v with
  | JNull => "None"
  | JBool true => "True"
  | JBool false => "False"
  | JInt z => z_str z
  | JStr s => sq s
  | JArr l =>
      "[" ++ String.concat ", " (map py_repr l) ++ "]"
  | JObj kvs =>
      "{" ++ String.concat ", " (map (fun kv => sq kv.1 ++ ": " ++ py_repr kv.2) kvs) ++ "}"
  end.

(** [str(v)]: a string is shown bare, everything else as its repr. *)
Definition py_str (v : jvalue) : string :=
  match v with JStr s => s | _ => py_repr v end.

(* ================================================================== *)
(** ** Exceptions and the effects of the code *)

(** The exception classes raised on the paths we model. *)
Inductive exc_class :=
| ValueError | KeyError | TypeError | AssertionError | AttributeError
| ResultConsumedError    (** neo4j.exceptions.ResultConsumedError *)
| Neo4jError             (** neo4j.exceptions.Neo4jError and its subclasses *)
| ServiceUnavailable     (** neo4j.exceptions.ServiceUnavailable *)
| BareException          (** a plain [Exception] *)
| KeyboardInterrupt.     (** a [BaseException] that is not an [Exception] *)

Record exn := Exn { exn_class : exc_class; exn_arg : string }.

(** [isinstance(e, Exception)] *)
Definition is_Exception (c : exc_class) : bool :=
  match c with KeyboardInterrupt => false | _ => true end.

(** [str(e)] for an exception built with one string argument: a
    [KeyError] shows the repr of its argument. *)
Definition exn_str (e : exn) : string :=
  match exn_class e with
  | KeyError => sq (exn_arg e)
  | _ => exn_arg e
  end.

(** A computation that returns a value or raises. *)
Inductive result (A : Type) := Ok (a : A) | Raise (e : exn).
Arguments Ok {A} a.
Arguments Raise {A} e.

Global Instance result_ret : MRet result := fun _ a => Ok a.
Global Instance result_bind : MBind result := fun _ _ f m =>
  match m with Ok a => f a | Raise e => Raise e end.

Definition raise {A} (c : exc_class) (msg : string) : result A := Raise (Exn c msg).

(** [for x in xs: ys.append(f(x))], stopping at the first exception. *)
Fixpoint map_res {A B} (f : A -> result B) (xs : list A) : result (list B) :=
  match xs with
  | [] => Ok []
  | x :: r => y ← f x; ys ← map_res f r; Ok (y :: ys)
  end.

(** State passing with exceptions: the state survives a raise, so that
    mutations done before the exception stay visible. *)
Definition M (S A : Type) := S -> result A * S.

Global Instance M_ret {S} : MRet (M S) := fun _ a s => (Ok a, s).
Global Instance M_bind {S} : MBind (M S) := fun _ _ f m s =>
  match m s with
  | (Ok a, s') => f a s'
  | (Raise e, s') => (Raise e, s')
  end.

Definition throw {S A} (c : exc_class) (msg : string) : M S A :=
  fun s => (Raise (Exn c msg), s).
Definition gets {S A} (f : S -> A) : M S A := fun s => (Ok (f s), s).
Definition modify {S} (f : S -> S) : M S unit := fun s => (Ok tt, f s).

(* ================================================================== *)
(** ** factory.py: [InvokerFactory] *)

Module Factory.

(** A dict object (string keys).  Dict objects live in a heap so that
    aliasing between [self.config[t]] and the dict handed to an invoker
    is explicit. *)
Abbreviation dict := (gmap string jvalue).
Abbreviation loc := positive.

(** An invoker class of the registry (its name in the registry is
    unrelated to it). *)
Abbreviation invoker_class := string.

(** The result of [cls.from_config(config)]: the class and the dict
    object it was given. *)
Record invoker := Invoker { inv_class : invoker_class; inv_config : loc }.

(** [self.config]'s values are dict objects of the heap; [self._registry]
    maps names to classes.  [constructed] logs the [from_config] calls. *)
Record world := World {
  heap : gmap loc dict;
  next_loc : loc;
  config : gmap string loc;
  registry : gmap string invoker_class;
  constructed : list invoker
}.

Definition set_heap (h : gmap loc dict) (w : world) : world :=
  World h (next_loc w) (config w) (registry w) (constructed w).
Definition set_registry (r : gmap string invoker_class) (w : world) : world :=
  World (heap w) (next_loc w) (config w) r (constructed w).

(** [dict()]: allocate a fresh empty dict object. *)
Definition new_dict : M world loc := fun w =>
  (Ok (next_loc w),
   World (<[next_loc w := ∅]> (heap w)) (Pos.succ (next_loc w))
         (config w) (registry w) (constructed w)).

(** [target.update(other)]: every key of [other] is written into the
    object [target], overwriting. *)
Definition dict_update (target : loc) (other : dict) : M world unit :=
  modify (fun w => set_heap (alter (fun d => other ∪ d) target (heap w)) w).

(** [cls.from_config(config)]: the class receives the object [config]. *)
Definition from_config (cls : invoker_class) (cfg : loc) : M world invoker :=
  fun w =>
    (Ok (Invoker cls cfg),
     World (heap w) (next_loc w) (config w) (registry w)
           (constructed w ++ [Invoker cls cfg])).

(** [f"{d}"] for a dict (keys in the map's order). *)
Definition dict_repr (d : dict) : string := py_repr (JObj (map_to_list d)).

(** Looking a value up in a dict with [str] keys: strings by equality,
    other scalars are never keys, containers are unhashable. *)
Definition str_key_lookup {V} (m : gmap string V) (k : jvalue) : result (option V) :=
  match k with
  | JStr s => Ok (m !! s)
  | JArr _ => raise TypeError "unhashable type: 'list'"
  | JObj _ => raise TypeError "unhashable type: 'dict'"
  | _ => Ok None
  end.

(** [register_invoker(invoker_name, invoker_class)] *)
Definition register_invoker (name : string) (cls : invoker_class) : M world unit :=
  fun w =>
    match registry w !! name with
    | Some _ => (raise ValueError (sq name ++ " is already registered"), w)
    | None => (Ok tt, set_registry (<[name := cls]> (registry w)) w)
    end.

Definition lift {S A} (r : result A) : M S A := fun s => (r, s).

(** [create_invoker(invoker_config)] *)
Definition create_invoker (invoker_config : dict) : M world invoker :=
  match invoker_config !! "type" with
  | None => throw ValueError ("Invalid invoker config: " ++ dict_repr invoker_config)
  | Some invoker_type =>
      w ← gets id;
      ocls ← lift (str_key_lookup (registry w) invoker_type);
      match ocls with
      | None => throw ValueError ("Unknown invoker type: " ++ py_str invoker_type)
      | Some cls =>
          odefaults ← lift (str_key_lookup (config w) invoker_type);
          cfg ← match odefaults with
                | Some l => mret l
                | None => new_dict
                end;
          _ ← dict_update cfg invoker_config;
          from_config cls cfg
      end
  end.

(** [InvokersPool(queue)]: the invokers in the order they were put. *)
Record InvokersPool := MkPool { pool_queue : list invoker }.

(** [for _ in range(n): queue.put(self.create_invoker(config))] *)
Fixpoint fill_queue (n : nat) (cfg : dict) : M world (list invoker) :=
  match n with
  | O => mret []
  | S k => i ← create_invoker cfg; r ← fill_queue k cfg; mret (i :: r)
  end.

(** [create_invoker_pool(pool_size, config)] *)
Definition create_invoker_pool (pool_size : Z) (cfg : dict) : M world InvokersPool :=
  if (0 <? pool_size)%Z then
    q ← fill_queue (Z.to_nat pool_size) cfg; mret (MkPool q)
  else throw AssertionError ("Should not create invoker pool of size " ++ z_str pool_size).

(** The configuration an invoker was built from, as it stands in [w]. *)
Definition effective_config (w : world) (i : invoker) : option dict :=
  heap w !! inv_config i.

End Factory.

(* ================================================================== *)
(** ** neo4j.py: [Neo4jClient] *)

(** [try: m except: h(e)]: the handler sees the exception and the state
    as it was when it was raised. *)
Definition catch {S A} (m : M S A) (h : exn -> M S A) : M S A := fun s =>
  match m s with
  | (Ok a, s') => (Ok a, s')
  | (Raise e, s') => h e s'
  end.

Module Neo4j.

(** [RecordType]: one row, a list of field values. *)
Abbreviation record := (list jvalue).

(** [Neo4jQueryResult] *)
Record Neo4jQueryResult := QueryResult {
  headers : list string;
  records : list record;
  has_more : bool;
  error : option string
}.

(** [Neo4jQueryResult(error=msg)]: every other field at its default. *)
Definition error_result (msg : string) : Neo4jQueryResult :=
  QueryResult [] [] false (Some msg).

(** [Neo4jQueryResult.from_neo4j_result(records, keys, has_more)] *)
Definition from_neo4j_result (recs : list record) (keys : list string)
    (more : bool) : Neo4jQueryResult :=
  QueryResult keys recs more None.

(** [model_dump_json()], given as the JSON value it serialises. *)
Definition model_dump_json (r : Neo4jQueryResult) : jvalue :=
  JObj [("headers", JArr (map JStr (headers r)));
        ("records", JArr (map JArr (records r)));
        ("has_more", JBool (has_more r));
        ("error", match error r with None => JNull | Some s => JStr s end)].

(** The neo4j [Result] cursor handed to the result transformer: its
    keys, the rows it has still to deliver, whether it is consumed
    (closed) once the fetch is done, and a failure of the connection
    while pulling rows or while peeking, if any. *)
Record cursor := Cursor {
  c_keys : list string;
  c_rows : list record;
  c_consumed : bool;
  c_fetch_fault : option exn;
  c_peek_fault : option exn
}.

Definition drop_rows (n : nat) (c : cursor) : cursor :=
  Cursor (c_keys c) (skipn n (c_rows c)) (c_consumed c) (c_fetch_fault c)
         (c_peek_fault c).

(** [result.fetch(n)], i.e. [list(islice(result, n))]. *)
Definition fetch (n : Z) : M cursor (list record) := fun c =>
  if (n <? 0)%Z then
    (raise ValueError
       "Stop argument for islice() must be None or an integer: 0 <= x <= sys.maxsize.", c)
  else match c_fetch_fault c with
       | Some e => (Raise e, c)
       | None => (Ok (firstn (Z.to_nat n) (c_rows c)), drop_rows (Z.to_nat n) c)
       end.

(** [result.keys()] *)
Definition keys : M cursor (list string) := gets c_keys.

(** [result.peek()]: the next row without consuming it, [None] at the
    end; a consumed result raises [ResultConsumedError]. *)
Definition peek : M cursor (option record) := fun c =>
  if c_consumed c then
    (raise ResultConsumedError "The result is out of scope.", c)
  else match c_peek_fault c with
       | Some e => (Raise e, c)
       | None => (Ok (head (c_rows c)), c)
       end.

(** [Neo4jClient] *)
Record Neo4jClient := MkClient {
  driver : option nat;
  database_name : option string;
  limit : Z;
  query_timeout : option Z;
  execute_write_queries : bool
}.

(** [Neo4jClient._limiting_transformer(result)] *)
Definition limiting_transformer (self : Neo4jClient) : M cursor Neo4jQueryResult :=
  recs ← fetch (limit self);
  ks ← keys;
  more ← catch (p ← peek; mret (bool_decide (p <> None)))
               (fun e => match exn_class e with
                         | ResultConsumedError => mret false
                         | _ => fun c => (Raise e, c)
                         end);
  mret (from_neo4j_result recs ks more).

(** What the backing store does with the query: it raises (a failure of
    the driver, the connection, the query or the transaction), or it
    runs the result transformer on the result cursor. *)
Inductive store_outcome :=
| StoreRaises (e : exn)
| StoreResult (c : cursor).

(** [self.driver.execute_query(query, ..., result_transformer_=...)] *)
Definition execute_query (self : Neo4jClient) (store : store_outcome)
    : result Neo4jQueryResult :=
  match store with
  | StoreRaises e => Raise e
  | StoreResult c => (limiting_transformer self c).1
  end.

(** [Neo4jClient.execute(query_string)]: [store] is how the backing store
    answers the query. *)
Definition execute (self : Neo4jClient) (store : store_outcome) : result jvalue :=
  match execute_query self store with
  | Ok r => Ok (model_dump_json r)
  | Raise e =>
      if is_Exception (exn_class e)
      then Ok (model_dump_json (error_result (exn_str e)))
      else Raise e
  end.

End Neo4j.

(* ================================================================== *)
(** ** neo4j.py: the module-level [_DRIVER] and [Neo4jClientFactory] *)

Module SharedDriver.
Import Neo4j.

(** The process-wide state: the global [_DRIVER] (drivers are numbered
    in creation order) and counters of the calls to [_create_driver] that
    returned a driver and of the calls to [verify_connectivity]. *)
Record process := Process {
  _DRIVER : option nat;
  drivers_created : nat;
  verifications : nat
}.

Definition initial : process := Process None 0 0.

(** What the environment does during one construction: the failure, if
    any, of reading the connection settings, of [GraphDatabase.driver], of
    [verify_connectivity] and of reading the remaining settings, and the
    values the [ConfigReader] yields for the remaining settings. *)
Record construct_env := Env {
  read_error : option exn;
  create_error : option exn;
  verify_error : option exn;
  tail_error : option exn;
  env_database_name : option string;
  env_limit : Z;
  env_query_timeout : option Z;
  env_write_queries : bool
}.

(** A [Neo4jClientFactory] holds the settings, not the driver. *)
Record ClientFactory := MkFactory {
  f_database_name : option string;
  f_limit : Z;
  f_query_timeout : option Z;
  f_write_queries : bool
}.

Definition fail_with {A} (o : option exn) (k : M process A) : M process A :=
  match o with Some e => fun p => (Raise e, p) | None => k end.

(** [_DRIVER = _create_driver(config_to_use)] *)
Definition create_driver (x : construct_env) : M process unit :=
  fail_with (create_error x)
    (modify (fun p => Process (Some (drivers_created p)) (S (drivers_created p))
                              (verifications p))).

(** [_DRIVER.verify_connectivity()] *)
Definition verify_connectivity (x : construct_env) : M process unit :=
  _ ← modify (fun p => Process (_DRIVER p) (drivers_created p) (S (verifications p)));
  fail_with (verify_error x) (mret tt).

(** [Neo4jClientFactory.__init__(config)] *)
Definition construct (x : construct_env) : M process ClientFactory :=
  d ← gets _DRIVER;
  _ ← match d with
      | None =>
          fail_with (read_error x)
            (_ ← create_driver x; verify_connectivity x)
      | Some _ => mret tt
      end;
  fail_with (tail_error x)
    (mret (MkFactory (env_database_name x) (env_limit x) (env_query_timeout x)
                     (env_write_queries x))).

(** [Neo4jClientFactory.__enter__()]: a client on the current [_DRIVER]. *)
Definition enter (f : ClientFactory) : M process Neo4jClient :=
  d ← gets _DRIVER;
  mret (MkClient d (f_database_name f) (f_limit f) (f_query_timeout f)
                 (f_write_queries f)).

(** [Neo4jClientFactory.__exit__(...)] does nothing. *)
Definition exit (f : ClientFactory) : M process unit := mret tt.

(** The calls a process makes: constructions, and invocations, which
    enter a factory, run a query and exit it. *)
Inductive op :=
| OpConstruct (x : construct_env)
| OpInvoke (f : ClientFactory).

Definition step (o : op) : M process unit :=
  match o with
  | OpConstruct x => _ ← construct x; mret tt
  | OpInvoke f => _ ← enter f; exit f
  end.



End SharedDriver.

(* ================================================================== *)
(** ** openai.py: chat messages and [AzureOpenAIChatInvoker.invoke] *)

(** [try: m except KeyError: h] *)
Definition except_KeyError {A} (m : result A) (h : result A) : result A :=
  match m with
  | Raise e => match exn_class e with KeyError => h | _ => Raise e end
  | ok => ok
  end.

Module Chat.

(** The classes of [_CHAT_COMPLETION_MAP]. *)
Inductive chat_class :=
| ChatCompletionSystemMessageParam
| ChatCompletionAssistantMessageParam
| ChatCompletionUserMessageParam.

(** [chat_cls(role=role, content=content)] *)
Record ChatCompletionMessageParam := MessageParam {
  m_class : chat_class;
  m_role : jvalue;
  m_content : jvalue
}.

(** A lookup in a parsed JSON object: the last binding of a key wins,
    as in [json.loads]. *)
Definition assoc_lookup (k : string) (kvs : list (string * jvalue)) : option jvalue :=
  fold_left (fun acc kv => if String.eqb kv.1 k then Some kv.2 else acc) kvs None.

(** [v[k]] for a string [k]. *)
Definition getitem_str (v : jvalue) (k : string) : result jvalue :=
  match v with
  | JObj kvs =>
      match assoc_lookup k kvs with
      | Some x => Ok x
      | None => raise KeyError k
      end
  | JArr _ => raise TypeError "list indices must be integers or slices, not str"
  | JStr _ => raise TypeError "string indices must be integers, not 'str'"
  | JNull => raise TypeError "'NoneType' object is not subscriptable"
  | JBool _ => raise TypeError "'bool' object is not subscriptable"
  | JInt _ => raise TypeError "'int' object is not subscriptable"
  end.

(** [_CHAT_COMPLETION_MAP[role]] *)
Definition chat_completion_map (role : jvalue) : result chat_class :=
  match role with
  | JStr s =>
      if String.eqb s "system" then Ok ChatCompletionSystemMessageParam
      else if String.eqb s "assistant" then Ok ChatCompletionAssistantMessageParam
      else if String.eqb s "user" then Ok ChatCompletionUserMessageParam
      else raise KeyError s
  | JArr _ => raise TypeError "unhashable type: 'list'"
  | JObj _ => raise TypeError "unhashable type: 'dict'"
  | _ => raise KeyError (py_str role)
  end.

(** [chat_completion_message(dialogue_element)] *)
Definition chat_completion_message (dialogue_element : jvalue)
    : result ChatCompletionMessageParam :=
  role ← except_KeyError (getitem_str dialogue_element "role")
           (raise KeyError "not provided a role");
  chat_cls ← except_KeyError (chat_completion_map role)
               (raise KeyError ("unknown chat role '" ++ py_str role ++ "'"));
  content ← except_KeyError (getitem_str dialogue_element "content")
              (raise KeyError "not provided content");
  Ok (MessageParam chat_cls role content).

(** [for element in v]: a list yields its items, a dict its keys, a
    string its characters; other values are not iterable. *)
Definition py_iter (v : jvalue) : result (list jvalue) :=
  match v with
  | JArr l => Ok l
  | JObj kvs => Ok (map (fun kv => JStr kv.1) kvs)
  | JStr s => Ok (map (fun c => JStr (String c EmptyString)) (String.list_ascii_of_string s))
  | JNull => raise TypeError "'NoneType' object is not iterable"
  | JBool _ => raise TypeError "'bool' object is not iterable"
  | JInt _ => raise TypeError "'int' object is not iterable"
  end.

Section Invoke.
(** [json.loads], [None] standing for a [JSONDecodeError]. *)
Variable json_loads : string -> option jvalue.
(** [self._client.chat.completions.create(...)] followed by
    [response.choices[0].message.content]. *)
Variable chat_create : list ChatCompletionMessageParam -> result string.

(** [AzureOpenAIChatInvoker.invoke(content)] *)
Definition invoke (content : string) : result string :=
  match json_loads content with
  | None => raise ValueError "Invoker input cannot be parsed. Is it JSON?"
  | Some messages_raw =>
      elements ← py_iter messages_raw;
      messages ← map_res chat_completion_message elements;
      chat_create messages
  end.
End Invoke.





(** The keys of [_CHAT_COMPLETION_MAP]. *)
Definition known_roles : list jvalue := [JStr "system"; JStr "assistant"; JStr "user"].

End Chat.

(* ================================================================== *)
(** ** Sample inputs *)

Module Samples.
Import Factory Neo4j SharedDriver Chat.

(** A factory whose defaults for ["t"] are [{'a': 1}] and whose
    registry maps ["t"] to class ["C"]. *)
Definition w_sample : world :=
  World {[1%positive := {["a" := JInt 1]}]} 2%positive {["t" := 1%positive]}
        {["t" := "C"]} [].

(** Two step configurations for type ["t"]. *)
Definition step_b : dict := {["type" := JStr "t"; "b" := JInt 2]}.

Definition step_c : dict := {["type" := JStr "t"; "c" := JInt 3]}.

(** A client with limit 2 on driver 0. *)
Definition client_sample : Neo4jClient := MkClient (Some 0) None 2 None false.

(** A result cursor with key ["n"] and the given rows. *)
Definition cursor_sample (rows : list record) (consumed : bool) : cursor :=
  Cursor ["n"] rows consumed None None.

(** A construction that reads its settings and creates its driver. *)
Definition env_sample (verify : option exn) : construct_env :=
  Env None None verify None (Some "neo4j") 1000 None false.


Definition loads_const (v : jvalue) : string -> option jvalue := fun _ => Some v.

Definition create_echo : list ChatCompletionMessageParam -> result string :=
  fun _ => Ok "ok".

End Samples.

(* ================================================================== *)
(** * Properties *)

Example py_repr_sample :
  py_repr (JObj [("type", JStr "neo4j"); ("limit", JInt 120); ("x", JArr [JNull; JInt (-3); JInt 0])])
  = "{'type': 'neo4j', 'limit': 120, 'x': [None, -3, 0]}".
Proof. reflexivity. Qed.

(** Unfold the monads and the primitive operations on their states. *)
Ltac run_M :=
  cbv [mbind M_bind mret M_ret gets Factory.lift modify throw catch
       Factory.dict_update Factory.from_config Factory.new_dict
       Factory.set_heap Factory.set_registry Factory.str_key_lookup id
       Neo4j.fetch Neo4j.keys Neo4j.peek Neo4j.drop_rows].

Module FactoryFacts.
Import Factory Samples.

(** The successful path of [create_invoker] when the factory holds
    defaults for the type: the defaults object itself is updated and
    handed to the class. *)
Lemma create_invoker_with_defaults (w : world) (step : dict) (t : string)
    (cls : invoker_class) (l : loc) :
  step !! "type" = Some (JStr t) ->
  registry w !! t = Some cls ->
  config w !! t = Some l ->
  create_invoker step w =
    (Ok (Invoker cls l),
     World (alter (fun d => step ∪ d) l (heap w)) (next_loc w) (config w)
           (registry w) (constructed w ++ [Invoker cls l])).
Proof.
  intros Htype Hreg Hcfg. unfold create_invoker. rewrite Htype.
  run_M. rewrite Hreg. run_M. rewrite Hcfg. reflexivity.
Qed.

(** Without defaults for the type a fresh dict receives the step
    configuration. *)
Lemma create_invoker_without_defaults (w : world) (step : dict) (t : string)
    (cls : invoker_class) :
  step !! "type" = Some (JStr t) ->
  registry w !! t = Some cls ->
  config w !! t = None ->
  create_invoker step w =
    (Ok (Invoker cls (next_loc w)),
     World (alter (fun d => step ∪ d) (next_loc w) (<[next_loc w := ∅]> (heap w)))
           (Pos.succ (next_loc w)) (config w) (registry w)
           (constructed w ++ [Invoker cls (next_loc w)])).
Proof.
  intros Htype Hreg Hcfg. unfold create_invoker. rewrite Htype.
  run_M. rewrite Hreg. run_M. rewrite Hcfg. reflexivity.
Qed.

(** C1 (code_bug): the second of two calls for the same type does not
    start from the defaults as supplied: the key ["b"] of the first step
    configuration leaks into the configuration of the second invoker,
    which is the supplied defaults overlaid with [step_c] plus ["b"]. *)
Theorem create_invoker_second_call_leaks :
  let w1 := (create_invoker step_b w_sample).2 in
  let p := create_invoker step_c w1 in
  p.1 = Ok (Invoker "C" 1%positive) /\
  effective_config p.2 (Invoker "C" 1%positive)
    = Some (step_c ∪ (step_b ∪ {["a" := JInt 1]})) /\
  effective_config p.2 (Invoker "C" 1%positive)
    <> Some (step_c ∪ {["a" := JInt 1]}).
Proof.
  vm_compute. split; [reflexivity | split; [reflexivity | congruence]].
Qed.

(** C5: a step configuration without a ["type"] key fails with the
    "Invalid invoker config" [ValueError]; a type name that is not
    registered fails with the "Unknown invoker type" [ValueError]; in
    both cases the world, and so the log of constructed invokers, is
    left as it was. *)
Theorem create_invoker_rejects (w : world) (step : dict) (t : string) :
  (step !! "type" = None ->
   create_invoker step w
   = (Raise (Exn ValueError ("Invalid invoker config: " ++ dict_repr step)), w)) /\
  (step !! "type" = Some (JStr t) -> registry w !! t = None ->
   create_invoker step w
   = (Raise (Exn ValueError ("Unknown invoker type: " ++ t)), w)).
Proof.
  split.
  - intros Htype. unfold create_invoker. rewrite Htype. reflexivity.
  - intros Htype Hreg. unfold create_invoker. rewrite Htype.
    run_M. rewrite Hreg. reflexivity.
Qed.

Lemma create_invoker_rejects_witness :
  (create_invoker {["typ" := JStr "t"]} w_sample
   = (Raise (Exn ValueError "Invalid invoker config: {'typ': 't'}"), w_sample)) /\
  (create_invoker {["type" := JStr "nope"]} w_sample
   = (Raise (Exn ValueError "Unknown invoker type: nope"), w_sample)).
Proof.
  split.
  - etransitivity;
      [apply (proj1 (create_invoker_rejects w_sample {["typ" := JStr "t"]} "t"));
       reflexivity | reflexivity].
  - etransitivity;
      [apply (proj2 (create_invoker_rejects w_sample {["type" := JStr "nope"]} "nope"));
       reflexivity | reflexivity].
Defined.

(** C6: registering a present name raises the "already registered"
    [ValueError] and leaves the world as it was; registration never
    changes an existing entry; two distinct fresh names both register
    and each resolves to its own class. *)
Theorem register_invoker_append_only (w : world) (name name2 : string)
    (cls cls2 : invoker_class) :
  (is_Some (registry w !! name) ->
   register_invoker name cls w
   = (Raise (Exn ValueError (sq name ++ " is already registered")), w)) /\
  (forall k v, registry w !! k = Some v ->
   registry (register_invoker name cls w).2 !! k = Some v) /\
  (name <> name2 -> registry w !! name = None -> registry w !! name2 = None ->
   let r1 := register_invoker name cls w in
   let r2 := register_invoker name2 cls2 r1.2 in
   r1.1 = Ok tt /\ r2.1 = Ok tt /\
  registry r2.2 !! name = Some cls /\ registry r2.2 !! name2 = Some cls2).
Proof.
  split; [|split].
  - intros [c Hc]. unfold register_invoker. rewrite Hc. reflexivity.
  - intros k v Hk. unfold register_invoker.
    destruct (registry w !! name) eqn:Hn; [exact Hk|]. cbn.
    rewrite lookup_insert_ne; [exact Hk|]. congruence.
  - intros Hne Hn Hn2. unfold register_invoker. rewrite Hn. cbn.
    rewrite lookup_insert_ne by congruence. rewrite Hn2. cbn.
    split; [reflexivity | split; [reflexivity|]].
    rewrite lookup_insert_ne by congruence.
    rewrite !lookup_insert_eq. split; reflexivity.
Qed.

Lemma register_invoker_append_only_witness :
  register_invoker "t" "D" w_sample
  = (Raise (Exn ValueError "'t' is already registered"), w_sample) /\
  registry (register_invoker "u" "D" w_sample).2 !! "t" = Some "C" /\
  (let r1 := register_invoker "u" "D" w_sample in
   let r2 := register_invoker "v" "E" r1.2 in
   r1.1 = Ok tt /\ r2.1 = Ok tt /\
  registry r2.2 !! "u" = Some "D" /\ registry r2.2 !! "v" = Some "E").
Proof.
  pose proof (register_invoker_append_only w_sample "t" "v" "D" "E") as [H1 _].
  pose proof (register_invoker_append_only w_sample "u" "v" "D" "E") as [_ [H2 H3]].
  split; [apply H1; vm_compute; eexists; reflexivity|].
  split; [apply H2; reflexivity|].
  apply H3; [discriminate | reflexivity | reflexivity].
Defined.

(** C7: a pool size that is zero or negative fails the assertion before
    any invoker is created: the world, and so the log of constructed
    invokers, is left as it was and no pool is returned. *)
Theorem create_invoker_pool_rejects_size (w : world) (n : Z) (cfg : dict) :
  (n <= 0)%Z ->
  create_invoker_pool n cfg w
  = (Raise (Exn AssertionError ("Should not create invoker pool of size " ++ z_str n)), w).
Proof.
  intros Hn. unfold create_invoker_pool.
  replace (0 <? n)%Z with false by (symmetry; apply Z.ltb_ge; lia).
  reflexivity.
Qed.

Lemma create_invoker_pool_rejects_size_witness :
  create_invoker_pool (-2) step_b w_sample
  = (Raise (Exn AssertionError "Should not create invoker pool of size -2"), w_sample).
Proof. apply (create_invoker_pool_rejects_size w_sample (-2) step_b). lia. Defined.

(** C10: with defaults for the type, [create_invoker] merges the step
    configuration into the stored defaults object itself: afterwards the
    factory's defaults for the type hold every key of the step
    configuration (["type"] included) with the step's value, and the next
    call for the type starts from that mutated mapping. *)
Theorem create_invoker_mutates_defaults (w : world) (step step2 : dict)
    (t : string) (cls : invoker_class) (l : loc) (d : dict) :
  step !! "type" = Some (JStr t) ->
  registry w !! t = Some cls ->
  config w !! t = Some l ->
  heap w !! l = Some d ->
  let w' := (create_invoker step w).2 in
  config w' !! t = Some l /\
  heap w' !! l = Some (step ∪ d) /\
  (forall k v, step !! k = Some v -> (step ∪ d) !! k = Some v) /\
  (step2 !! "type" = Some (JStr t) ->
   let p := create_invoker step2 w' in
   p.1 = Ok (Invoker cls l) /\
  effective_config p.2 (Invoker cls l) = Some (step2 ∪ (step ∪ d))).
Proof.
  intros Htype Hreg Hcfg Hd. cbn zeta.
  rewrite (create_invoker_with_defaults w step t cls l Htype Hreg Hcfg). cbn.
  split; [exact Hcfg|].
  assert (Hl : alter (fun d0 => step ∪ d0) l (heap w) !! l = Some (step ∪ d))
    by (rewrite lookup_alter_eq, Hd; reflexivity).
  split; [exact Hl|]. split.
  - intros k v Hk. apply lookup_union_Some_l. exact Hk.
  - intros Htype2.
    erewrite create_invoker_with_defaults; [| exact Htype2 | exact Hreg | exact Hcfg].
    cbn.
    split; [reflexivity|]. unfold effective_config. cbn.
    rewrite lookup_alter_eq, Hl. reflexivity.
Qed.

Lemma create_invoker_mutates_defaults_witness :
  let w' := (create_invoker step_b w_sample).2 in
  config w' !! "t" = Some 1%positive /\
  heap w' !! 1%positive = Some (step_b ∪ {["a" := JInt 1]}) /\
  (forall k v, step_b !! k = Some v -> (step_b ∪ {["a" := JInt 1]}) !! k = Some v) /\
  (step_c !! "type" = Some (JStr "t") ->
   let p := create_invoker step_c w' in
   p.1 = Ok (Invoker "C" 1%positive) /\
  effective_config p.2 (Invoker "C" 1%positive)
   = Some (step_c ∪ (step_b ∪ {["a" := JInt 1]}))).
Proof.
  apply (create_invoker_mutates_defaults w_sample step_b step_c "t" "C" 1%positive);
    reflexivity.
Defined.

End FactoryFacts.

Module Neo4jFacts.
Import Neo4j Samples.


(** With a non-negative limit and no failure while pulling rows, the
    transformer returns the first [limit] rows and the cursor's keys; its
    [has_more] is what the peek tells. *)
Lemma limiting_transformer_fetched (self : Neo4jClient) (c : cursor) :
  (0 <= limit self)%Z ->
  c_fetch_fault c = None ->
  (limiting_transformer self c).1 =
    (more ← (catch (p ← peek; mret (bool_decide (p <> None)))
                   (fun e => match exn_class e with
                             | ResultConsumedError => mret false
                             | _ => fun c => (Raise e, c)
                             end)
                   (drop_rows (Z.to_nat (limit self)) c)).1;
     Ok (from_neo4j_result (firstn (Z.to_nat (limit self)) (c_rows c)) (c_keys c) more)).
Proof.
  intros HL Hf. unfold limiting_transformer.
  cbv [mbind M_bind mret M_ret gets fetch keys].
  replace (limit self <? 0)%Z with false by (symmetry; apply Z.ltb_ge; lia).
  rewrite Hf. cbn [fst].
  destruct (catch _ _ _) as [[m|e] s]; reflexivity.
Qed.








End Neo4jFacts.

Module SharedDriverFacts.
Import Neo4j SharedDriver Samples.



(** From an unset [_DRIVER], a construction whose settings are read and
    whose driver is created sets the driver and verifies it once. *)
Lemma construct_creates (x : construct_env) (p : process) :
  _DRIVER p = None -> read_error x = None -> create_error x = None ->
  (construct x p).2 = Process (Some (drivers_created p)) (S (drivers_created p))
                              (S (verifications p)) /\
  (forall e, verify_error x = Some e -> (construct x p).1 = Raise e).
Proof.
  intros Hd Hr Hc. unfold construct, create_driver, verify_connectivity, fail_with.
  run_M. rewrite Hd, Hr, Hc. cbn.
  destruct (verify_error x) as [e|]; cbn.
  - split; [reflexivity|]. intros e' [= <-]. reflexivity.
  - destruct (tail_error x); split; [reflexivity| |reflexivity|]; intros e' [=].
Qed.






End SharedDriverFacts.

Module ChatFacts.
Import Chat Samples.

Example chat_sample :
  invoke (loads_const (JArr [JObj [("role", JStr "user"); ("content", JStr "hi")];
                             JObj [("role", JStr "robot"); ("content", JStr "x")]]))
         create_echo ""
  = Raise (Exn KeyError "unknown chat role 'robot'").
Proof. reflexivity. Qed.





End ChatFacts.

(* ================================================================== *)
(** * Further properties of the code *)

Module FactoryExtra.
Import Factory Samples FactoryFacts.

(** Without defaults for the type the invoker receives a fresh dict equal
    to the step configuration; the factory's defaults and every other
    dict object are untouched. *)
Theorem create_invoker_fresh_config (w : world) (step : dict) (t : string)
    (cls : invoker_class) :
  step !! "type" = Some (JStr t) ->
  registry w !! t = Some cls ->
  config w !! t = None ->
  let p := create_invoker step w in
  p.1 = Ok (Invoker cls (next_loc w)) /\
  effective_config p.2 (Invoker cls (next_loc w)) = Some step /\
  config p.2 = config w /\
  (forall l, l <> next_loc w -> heap p.2 !! l = heap w !! l).
Proof.
  intros Htype Hreg Hcfg. cbn zeta.
  rewrite (create_invoker_without_defaults w step t cls Htype Hreg Hcfg). cbn.
  split; [reflexivity|]. split; [|split; [reflexivity|]].
  - unfold effective_config. cbn.
    rewrite lookup_alter_eq, lookup_insert_eq. cbn. rewrite (right_id_L ∅ union).
    reflexivity.
  - intros l Hl. rewrite lookup_alter_ne by congruence.
    rewrite lookup_insert_ne by congruence. reflexivity.
Qed.

Lemma create_invoker_fresh_config_witness :
  let p := create_invoker {["type" := JStr "u"]}
             (World ∅ 1%positive ∅ {["u" := "U"]} []) in
  p.1 = Ok (Invoker "U" 1%positive) /\
  effective_config p.2 (Invoker "U" 1%positive) = Some {["type" := JStr "u"]} /\
  config p.2 = ∅ /\
  (forall l, l <> 1%positive -> heap p.2 !! l = (∅ : gmap loc dict) !! l).
Proof.
  apply (create_invoker_fresh_config (World ∅ 1%positive ∅ {["u" := "U"]} [])
           {["type" := JStr "u"]} "u" "U"); reflexivity.
Defined.



(** A [type] that is a list or a dict is unhashable: [create_invoker]
    raises a [TypeError] (not the "Unknown invoker type" [ValueError])
    and changes nothing. *)
Theorem create_invoker_unhashable_type (w : world) (step : dict) (v : jvalue) :
  step !! "type" = Some v ->
  (forall l, v = JArr l -> create_invoker step w
                           = (Raise (Exn TypeError "unhashable type: 'list'"), w)) /\
  (forall o, v = JObj o -> create_invoker step w
                           = (Raise (Exn TypeError "unhashable type: 'dict'"), w)).
Proof.
  intros Htype. split; intros x ->; unfold create_invoker; rewrite Htype; reflexivity.
Qed.

Lemma create_invoker_unhashable_type_witness :
  create_invoker {["type" := JArr [JStr "t"]]} w_sample
  = (Raise (Exn TypeError "unhashable type: 'list'"), w_sample) /\
  create_invoker {["type" := JObj [("t", JInt 1)]]} w_sample
  = (Raise (Exn TypeError "unhashable type: 'dict'"), w_sample).
Proof.
  split.
  - refine (proj1 (create_invoker_unhashable_type w_sample {["type" := JArr [JStr "t"]]}
                     (JArr [JStr "t"]) _) [JStr "t"] eq_refl).
    vm_compute. reflexivity.
  - refine (proj2 (create_invoker_unhashable_type w_sample {["type" := JObj [("t", JInt 1)]]}
                     (JObj [("t", JInt 1)]) _) [("t", JInt 1)] eq_refl).
    vm_compute. reflexivity.
Defined.







(** A pool for a registered type that is unknown to the registry fails on
    its first invoker with the "Unknown invoker type" error and changes
    nothing. *)
Theorem create_invoker_pool_unknown_type (w : world) (step : dict) (t : string)
    (n : Z) :
  step !! "type" = Some (JStr t) -> registry w !! t = None -> (0 < n)%Z ->
  create_invoker_pool n step w
  = (Raise (Exn ValueError ("Unknown invoker type: " ++ t)), w).
Proof.
  intros Htype Hreg Hn. unfold create_invoker_pool.
  replace (0 <? n)%Z with true by (symmetry; apply Z.ltb_lt; exact Hn).
  destruct (Z.to_nat n) as [|k] eqn:Hk; [lia|].
  cbn [fill_queue]. run_M. unfold create_invoker. rewrite Htype. run_M.
  rewrite Hreg. reflexivity.
Qed.

Lemma create_invoker_pool_unknown_type_witness :
  create_invoker_pool 2 {["type" := JStr "nope"]} w_sample
  = (Raise (Exn ValueError "Unknown invoker type: nope"), w_sample).
Proof. apply (create_invoker_pool_unknown_type w_sample _ "nope" 2); reflexivity || lia. Defined.

End FactoryExtra.

Module Neo4jExtra.
Import Neo4j Samples Neo4jFacts.



(** A failure of the connection while pulling rows, or while peeking
    (other than [ResultConsumedError]), discards the rows already
    fetched: [execute] returns only the error. *)
Theorem execute_fault_discards_rows (self : Neo4jClient) (c : cursor) (e : exn) :
  (0 <= limit self)%Z -> is_Exception (exn_class e) = true ->
  (c_fetch_fault c = Some e ->
   execute self (StoreResult c) = Ok (model_dump_json (error_result (exn_str e)))) /\
  (c_fetch_fault c = None -> c_consumed c = false -> c_peek_fault c = Some e ->
   exn_class e <> ResultConsumedError ->
   execute self (StoreResult c) = Ok (model_dump_json (error_result (exn_str e)))).
Proof.
  intros HL He. split.
  - intros Hf. unfold execute, execute_query, limiting_transformer. run_M.
    replace (limit self <? 0)%Z with false by (symmetry; apply Z.ltb_ge; lia).
    rewrite Hf. cbn. rewrite He. reflexivity.
  - intros Hf Hc Hp Hrc. unfold execute, execute_query.
    rewrite limiting_transformer_fetched by assumption. run_M. rewrite Hc, Hp. cbn.
    destruct e as [cl arg]; cbn in *.
    destruct cl; try (exfalso; apply Hrc; reflexivity); cbn in He |- *;
      first [discriminate | reflexivity].
Qed.

Lemma execute_fault_discards_rows_witness :
  execute client_sample
    (StoreResult (Cursor ["n"] [[JInt 1]] false
                    (Some (Exn ServiceUnavailable "connection lost")) None))
  = Ok (model_dump_json (error_result "connection lost")) /\
  execute client_sample
    (StoreResult (Cursor ["n"] [[JInt 1]] false None
                    (Some (Exn ServiceUnavailable "connection lost"))))
  = Ok (model_dump_json (error_result "connection lost")).
Proof.
  split.
  - apply (proj1 (execute_fault_discards_rows client_sample
             (Cursor ["n"] [[JInt 1]] false (Some (Exn ServiceUnavailable "connection lost")) None)
             (Exn ServiceUnavailable "connection lost") ltac:(vm_compute; discriminate)
             eq_refl)).
    reflexivity.
  - apply (proj2 (execute_fault_discards_rows client_sample
             (Cursor ["n"] [[JInt 1]] false None (Some (Exn ServiceUnavailable "connection lost")))
             (Exn ServiceUnavailable "connection lost") ltac:(vm_compute; discriminate)
             eq_refl)); reflexivity || discriminate.
Defined.



(** With limit 0 no row is returned and [has_more] tells whether the
    query had any row at all. *)
Theorem execute_limit_zero (self : Neo4jClient) (c : cursor) :
  limit self = 0%Z ->
  c_consumed c = false -> c_fetch_fault c = None -> c_peek_fault c = None ->
  execute self (StoreResult c)
  = Ok (model_dump_json (QueryResult (c_keys c) [] (bool_decide (c_rows c <> [])) None)).
Proof.
  intros HL Hc Hf Hp. unfold execute, execute_query.
  rewrite limiting_transformer_fetched by (rewrite ?HL; lia || assumption).
  run_M. rewrite Hc, Hp, HL. cbn.
  destruct (c_rows c); reflexivity.
Qed.

Lemma execute_limit_zero_witness :
  execute (MkClient (Some 0) None 0 None false) (StoreResult (cursor_sample [[JInt 1]] false))
  = Ok (model_dump_json (QueryResult ["n"] [] true None)).
Proof.
  apply (execute_limit_zero (MkClient (Some 0) None 0 None false)
           (cursor_sample [[JInt 1]] false)); reflexivity.
Defined.

End Neo4jExtra.

Module SharedDriverExtra.
Import Neo4j SharedDriver Samples SharedDriverFacts.

(** A failed verification does not undo the assignment of [_DRIVER]: the
    unverified driver stays, and the next construction succeeds on it
    without verifying it or creating another. *)
Theorem failed_verification_keeps_driver (p : process) (x x' : construct_env)
    (e : exn) :
  _DRIVER p = None -> read_error x = None -> create_error x = None ->
  verify_error x = Some e -> tail_error x' = None ->
  let p1 := (construct x p).2 in
  (construct x p).1 = Raise e /\
  _DRIVER p1 = Some (drivers_created p) /\
  construct x' p1
  = (Ok (MkFactory (env_database_name x') (env_limit x') (env_query_timeout x')
                   (env_write_queries x')), p1).
Proof.
  intros Hd Hr Hc Hv Ht. cbn zeta.
  destruct (construct_creates x p Hd Hr Hc) as [Hp He].
  split; [exact (He e Hv)|]. rewrite Hp. split; [reflexivity|].
  unfold construct, fail_with. run_M. rewrite Ht. reflexivity.
Qed.

Lemma failed_verification_keeps_driver_witness :
  let x := env_sample (Some (Exn ServiceUnavailable "unreachable")) in
  let p1 := (construct x initial).2 in
  (construct x initial).1 = Raise (Exn ServiceUnavailable "unreachable") /\
  _DRIVER p1 = Some 0 /\
  construct (env_sample None) p1
  = (Ok (MkFactory (Some "neo4j") 1000 None false), p1).
Proof. apply failed_verification_keeps_driver; reflexivity. Defined.

(** A construction that fails before the driver exists (reading the
    settings or creating the driver) leaves [_DRIVER] unset, so the next
    construction tries again. *)
Theorem failed_creation_retried (p : process) (x : construct_env) (e : exn) :
  _DRIVER p = None ->
  (read_error x = Some e \/ (read_error x = None /\ create_error x = Some e)) ->
  construct x p = (Raise e, p).
Proof.
  intros Hd Hfail. unfold construct, create_driver, fail_with. run_M. rewrite Hd.
  destruct Hfail as [Hr | [Hr Hc]]; rewrite Hr; [reflexivity|]. rewrite Hc. reflexivity.
Qed.

Lemma failed_creation_retried_witness :
  construct (Env None (Some (Exn ValueError "bad uri")) None None None 1000 None false) initial
  = (Raise (Exn ValueError "bad uri"), initial).
Proof. apply failed_creation_retried; [reflexivity | right; split; reflexivity]. Defined.

End SharedDriverExtra.

Module ChatExtra.
Import Chat Samples ChatFacts.

(** A well-formed dialogue (a JSON array whose elements are objects with
    a known role and a content of any kind) reaches the chat API as the
    messages of the elements, in order; an empty array sends no message. *)
Theorem invoke_well_formed_dialogue (json_loads : string -> option jvalue)
    (chat_create : list ChatCompletionMessageParam -> result string)
    (content : string) (els : list jvalue) :
  json_loads content = Some (JArr els) ->
  Forall (fun el => exists kvs r c, el = JObj kvs /\ assoc_lookup "role" kvs = Some r /\
                      In r known_roles /\ assoc_lookup "content" kvs = Some c) els ->
  exists msgs, invoke json_loads chat_create content = chat_create msgs /\
    Forall2 (fun el m => getitem_str el "role" = Ok (m_role m) /\
                         getitem_str el "content" = Ok (m_content m)) els msgs.
Proof.
  intros Hl Hall. unfold invoke. rewrite Hl. cbn.
  assert (H : exists msgs, map_res chat_completion_message els = Ok msgs /\
            Forall2 (fun el m => getitem_str el "role" = Ok (m_role m) /\
                                 getitem_str el "content" = Ok (m_content m)) els msgs).
  { clear Hl.
    induction Hall as [|el els (kvs & r & c & -> & Hr & Hin & Hc) _ IH]; cbn.
    - exists []. split; constructor.
    - destruct IH as (msgs & Hm & Hf).
      assert (Hcls : exists cl, chat_completion_map r = Ok cl).
      { destruct Hin as [<-|[<-|[<-|[]]]]; eexists; reflexivity. }
      destruct Hcls as [cl Hcl].
      exists (MessageParam cl r c :: msgs).
      assert (Hel : chat_completion_message (JObj kvs) = Ok (MessageParam cl r c)).
      { unfold chat_completion_message. cbn. rewrite Hr. cbn. rewrite Hcl. cbn.
        rewrite Hc. reflexivity. }
      rewrite Hel. cbn. rewrite Hm. cbn. split; [reflexivity|].
      constructor; [|exact Hf]. cbn. rewrite Hr, Hc. split; reflexivity. }
  destruct H as (msgs & Hm & Hf). exists msgs. rewrite Hm. split; [reflexivity | exact Hf].
Qed.

Lemma invoke_well_formed_dialogue_witness :
  let els := [JObj [("role", JStr "system"); ("content", JStr "be brief")];
              JObj [("role", JStr "user"); ("content", JNull)]] in
  exists msgs, invoke (loads_const (JArr els)) create_echo "" = create_echo msgs /\
    Forall2 (fun el m => getitem_str el "role" = Ok (m_role m) /\
                         getitem_str el "content" = Ok (m_content m)) els msgs.
Proof.
  cbv zeta. apply invoke_well_formed_dialogue; [reflexivity|].
  constructor; [do 3 eexists; split; [reflexivity|]; split; [reflexivity|];
                      split; [left; reflexivity | reflexivity]|].
  constructor; [do 3 eexists; split; [reflexivity|]; split; [reflexivity|];
                      split; [right; right; left; reflexivity | reflexivity]|].
  constructor.
Defined.

(** Input that parses to a non-empty JSON object (a single message not
    wrapped in a list) or to a number, boolean or null raises a
    [TypeError], not one of the descriptive errors. *)
Theorem invoke_not_a_list (json_loads : string -> option jvalue)
    (chat_create : list ChatCompletionMessageParam -> result string)
    (content : string) (v : jvalue) :
  json_loads content = Some v ->
  ((exists k x kvs, v = JObj ((k, x) :: kvs)) ->
   invoke json_loads chat_create content
   = Raise (Exn TypeError "string indices must be integers, not 'str'")) /\
  (v = JNull \/ (exists b, v = JBool b) \/ (exists z, v = JInt z) ->
   exists msg, invoke json_loads chat_create content = Raise (Exn TypeError msg)).
Proof.
  intros Hl. unfold invoke. rewrite Hl. split.
  - intros (k & x & kvs & ->). reflexivity.
  - intros [-> | [[b ->] | [z ->]]]; eexists; reflexivity.
Qed.

Lemma invoke_not_a_list_witness :
  invoke (loads_const (JObj [("role", JStr "user"); ("content", JStr "hi")])) create_echo ""
  = Raise (Exn TypeError "string indices must be integers, not 'str'") /\
  exists msg, invoke (loads_const (JInt 5)) create_echo "" = Raise (Exn TypeError msg).
Proof.
  split.
  - apply (proj1 (invoke_not_a_list (loads_const (JObj [("role", JStr "user");
                                                        ("content", JStr "hi")]))
                    create_echo "" _ eq_refl)).
    do 3 eexists. reflexivity.
  - apply (proj2 (invoke_not_a_list (loads_const (JInt 5)) create_echo "" _ eq_refl)).
    right; right. eexists. reflexivity.
Defined.



End ChatExtra.
